(** * GlobalFilterDefaults: the default filter payload of the dashboard

    Source: orion-ui/packages/orion-design/src/models/GlobalFilterDefaults.ts

    The class has no methods: all of its behaviour is its field
    initialisers, which run in declaration order when an instance is
    constructed.  Objects and arrays are reference values, and the
    initialiser of [flow_runs] reads [this.defaultTimeFrame] and
    [this.defaultStates], so the model keeps a heap of objects, runs the
    initialisers in order against it, and reads the instance back. *)

From stdpp Require Import base option list strings relations.
From Stdlib Require Import ZArith Ascii Lia.

Local Open Scope string_scope.
Local Open Scope list_scope.

(** ** Values and the object heap *)

(** Heap addresses. *)
Abbreviation loc := nat (only parsing).

(** A JavaScript value occurring in the class.  The only number literals
    of the source are the integers [7] and [1]; numbers are kept as [Z]. *)
Inductive value : Type :=
| VUndef
| VBool (b : bool)
| VNum (n : Z)
| VStr (s : string)
| VRef (a : loc).

(** A heap cell: a plain object with its own properties in insertion
    order, or an array with its elements. *)
Inductive obj : Type :=
| OObject (props : list (string * value))
| OArray (elems : list value).

Abbreviation heap := (list obj) (only parsing).

(** ** Property lists *)

Fixpoint assoc (k : string) (ps : list (string * value)) : option value :=
  match ps with
  | [] => None
  | (k', v) :: ps' => if String.eqb k k' then Some v else assoc k ps'
  end.

(** Defining a data property: an existing key keeps its position, a new
    key goes last. *)
Fixpoint upsert (k : string) (v : value) (ps : list (string * value))
  : list (string * value) :=
  match ps with
  | [] => [(k, v)]
  | (k', v') :: ps' =>
      if String.eqb k k' then (k, v) :: ps' else (k', v') :: upsert k v ps'
  end.

(** ** The heap monad: state passing with failure *)

Definition M (A : Type) : Type := heap -> option (A * heap).

Definition ret {A} (x : A) : M A := fun h => Some (x, h).

Definition bind {A B} (c : M A) (f : A -> M B) : M B :=
  fun h => match c h with
           | Some (x, h') => f x h'
           | None => None
           end.

Notation "'let*' x ':=' c 'in' k" := (bind c (fun x => k))
  (at level 10, x name, c at level 100, k at level 200).
Notation "c ';;' k" := (bind c (fun _ => k))
  (at level 100, k at level 200, right associativity).

(** A fresh cell is placed at the end of the heap. *)
Definition alloc (o : obj) : M loc :=
  fun h => Some (length h, h ++ [o]).

Definition define_prop (a : loc) (k : string) (v : value) : M unit :=
  fun h => match h !! a with
           | Some (OObject ps) => Some (tt, <[a := OObject (upsert k v ps)]> h)
           | _ => None
           end.

Definition push_elem (a : loc) (v : value) : M unit :=
  fun h => match h !! a with
           | Some (OArray vs) => Some (tt, <[a := OArray (vs ++ [v])]> h)
           | _ => None
           end.

(** Reading [o.k]: an absent own property reads as [undefined]; reading
    through something that is not an object of the heap fails. *)
Definition get_prop (a : loc) (k : string) : M value :=
  fun h => match h !! a with
           | Some (OObject ps) => Some (default VUndef (assoc k ps), h)
           | _ => None
           end.

(** ** Expressions of the source *)

Definition str (s : string) : M value := ret (VStr s).
Definition num (n : Z) : M value := ret (VNum n).
Definition bool_lit (b : bool) : M value := ret (VBool b).

Fixpoint define_props (a : loc) (ps : list (string * M value)) : M unit :=
  match ps with
  | [] => ret tt
  | (k, e) :: ps' =>
      let* v := e in
      define_prop a k v ;;
      define_props a ps'
  end.

(** An object literal [{ k1: e1, ..., kn: en }]. *)
Definition obj_lit (ps : list (string * M value)) : M value :=
  let* a := alloc (OObject []) in
  define_props a ps ;;
  ret (VRef a).

Fixpoint push_elems (a : loc) (es : list (M value)) : M unit :=
  match es with
  | [] => ret tt
  | e :: es' =>
      let* v := e in
      push_elem a v ;;
      push_elems a es'
  end.

(** An array literal [[e1, ..., en]]. *)
Definition arr_lit (es : list (M value)) : M value :=
  let* a := alloc (OArray []) in
  push_elems a es ;;
  ret (VRef a).

(** [this.k] *)
Definition this_get (this : loc) (k : string) : M value := get_prop this k.

(** ** Class declarations *)

Inductive access : Type := Public | Private | Protected.

Record field_decl : Type := FieldDecl {
  fd_access : access;
  fd_readonly : bool;
  fd_name : string;
  fd_init : loc -> M value   (* the initialiser, given [this] *)
}.

(** Field initialisers run in declaration order, each defining its
    property on [this]. *)
Fixpoint init_fields (this : loc) (fs : list field_decl) : M unit :=
  match fs with
  | [] => ret tt
  | f :: fs' =>
      let* v := fd_init f this in
      define_prop this (fd_name f) v ;;
      init_fields this fs'
  end.

Definition construct (fs : list field_decl) : M loc :=
  let* this := alloc (OObject []) in
  init_fields this fs ;;
  ret this.

(** ** The class GlobalFilterDefaults *)

Module GlobalFilterDefaults.

Definition defaultStates (this : loc) : M value :=
  arr_lit [
    obj_lit [("name", str "Scheduled"); ("type", str "SCHEDULED")];
    obj_lit [("name", str "Pending"); ("type", str "PENDING")];
    obj_lit [("name", str "Running"); ("type", str "RUNNING")];
    obj_lit [("name", str "Completed"); ("type", str "COMPLETED")];
    obj_lit [("name", str "Failed"); ("type", str "FAILED")];
    obj_lit [("name", str "Cancelled"); ("type", str "CANCELLED")]
  ].

Definition defaultTimeFrame (this : loc) : M value :=
  obj_lit [
    ("dynamic", bool_lit true);
    ("from", obj_lit [("value", num 7); ("unit", str "days")]);
    ("to", obj_lit [("value", num 1); ("unit", str "days")])
  ].

Definition flows (this : loc) : M value := obj_lit [].

Definition deployments (this : loc) : M value := obj_lit [].

Definition flow_runs (this : loc) : M value :=
  obj_lit [
    ("timeframe", this_get this "defaultTimeFrame");
    ("states", this_get this "defaultStates")
  ].

Definition task_runs (this : loc) : M value := obj_lit [].

Definition fields : list field_decl := [
  FieldDecl Private true "defaultStates" defaultStates;
  FieldDecl Private true "defaultTimeFrame" defaultTimeFrame;
  FieldDecl Public false "flows" flows;
  FieldDecl Public false "deployments" deployments;
  FieldDecl Public false "flow_runs" flow_runs;
  FieldDecl Public false "task_runs" task_runs
].

(** [new GlobalFilterDefaults()] *)
Definition new : M loc := construct fields.

End GlobalFilterDefaults.

(** ** Reading an instance back *)

(** A value followed through the heap: what a deep comparison sees. *)
#[warning="-register-all"]
Inductive tree : Type :=
| TUndef
| TBool (b : bool)
| TNum (n : Z)
| TStr (s : string)
| TObj (props : list (string * tree))
| TArr (elems : list tree).

(** [snapshot n h v] follows references below [v] to depth [n]. *)
Fixpoint snapshot (n : nat) (h : heap) (v : value) : option tree :=
  match n with
  | O => None
  | S n' =>
      match v with
      | VUndef => Some TUndef
      | VBool b => Some (TBool b)
      | VNum z => Some (TNum z)
      | VStr s => Some (TStr s)
      | VRef a =>
          match h !! a with
          | Some (OObject ps) =>
              TObj <$> mapM (fun kv => pair (fst kv) <$> snapshot n' h (snd kv)) ps
          | Some (OArray vs) => TArr <$> mapM (snapshot n' h) vs
          | None => None
          end
      end
  end.

(** [v.k1.k2...kn] read from a heap. *)
Fixpoint get_path (h : heap) (v : value) (path : list string) : option value :=
  match path with
  | [] => Some v
  | k :: path' =>
      match v with
      | VRef a =>
          match get_prop a k h with
          | Some (v', _) => get_path h v' path'
          | None => None
          end
      | _ => None
      end
  end.

(** The deep value found at a path below [v]. *)
Definition read (n : nat) (h : heap) (v : value) (path : list string)
  : option tree :=
  v' ← get_path h v path; snapshot n h v'.

(** The own keys of an object, in property order. *)
Definition own_keys (h : heap) (a : loc) : option (list string) :=
  match h !! a with
  | Some (OObject ps) => Some (ps.*1)
  | _ => None
  end.

(** An own property of a snapshot. *)
Definition tree_prop (t : tree) (k : string) : option tree :=
  match t with
  | TObj ps => snd <$> List.find (fun kv => String.eqb k (fst kv)) ps
  | _ => None
  end.

Definition tree_str (t : tree) : option string :=
  match t with
  | TStr s => Some s
  | _ => None
  end.

Definition tree_elems (t : tree) : option (list tree) :=
  match t with
  | TArr ts => Some ts
  | _ => None
  end.

(** A [RunState] record read from a snapshot: its [name] and [type]. *)
Definition run_state (t : tree) : option (string * string) :=
  name_t ← tree_prop t "name";
  name ← tree_str name_t;
  type_t ← tree_prop t "type";
  type ← tree_str type_t;
  Some (name, type).

(** The [RunState] records of [inst.flow_runs.states], in list order. *)
Definition default_states (n : nat) (h : heap) (inst : loc)
  : option (list (string * string)) :=
  states ← read (3 + n) h (VRef inst) ["flow_runs"; "states"];
  records ← tree_elems states;
  mapM run_state records.

(** ** Declared members *)

Definition access_eqb (x y : access) : bool :=
  match x, y with
  | Public, Public | Private, Private | Protected, Protected => true
  | _, _ => false
  end.

Definition members (acc : access) (fs : list field_decl) : list field_decl :=
  List.filter (fun f => access_eqb (fd_access f) acc) fs.

Definition four_keys : list string :=
  ["flows"; "deployments"; "flow_runs"; "task_runs"].

(** ** Vocabulary of the claims *)

(** Modelled from the spec: the declaration of [RunState] lives in
    [@/types/filters/global], which is not among the sources; the spec
    gives its [type] field this closed set of codes. *)
Definition run_state_types : list string :=
  ["SCHEDULED"; "PENDING"; "RUNNING"; "COMPLETED"; "FAILED"; "CANCELLED"].

Definition is_upper (c : ascii) : bool :=
  (65 <=? nat_of_ascii c)%nat && (nat_of_ascii c <=? 90)%nat.

Definition is_lower (c : ascii) : bool :=
  (97 <=? nat_of_ascii c)%nat && (nat_of_ascii c <=? 122)%nat.

Definition to_lower (c : ascii) : ascii :=
  if is_upper c then ascii_of_nat (nat_of_ascii c + 32) else c.

Definition to_upper (c : ascii) : ascii :=
  if is_lower c then ascii_of_nat (nat_of_ascii c - 32) else c.

Fixpoint lowercase (s : string) : string :=
  match s with
  | EmptyString => EmptyString
  | String c s' => String (to_lower c) (lowercase s')
  end.

(** The rewriting the display names are compared with: first letter in
    upper case, every other letter in lower case. *)
Definition capitalize (s : string) : string :=
  match s with
  | EmptyString => EmptyString
  | String c s' => String (to_upper c) (lowercase s')
  end.

Fixpoint uppercase (s : string) : string :=
  match s with
  | EmptyString => EmptyString
  | String c s' => String (to_upper c) (uppercase s')
  end.

(** ** The object graph *)

Definition value_ref (v : value) : option loc :=
  match v with
  | VRef a => Some a
  | _ => None
  end.

(** The references a cell holds: through its properties, or through its
    elements. *)
Definition refs_of (o : obj) : list loc :=
  match o with
  | OObject ps => omap (fun kv => value_ref (snd kv)) ps
  | OArray vs => omap value_ref vs
  end.

(** [points_to h a b]: the cell at [a] holds a reference to [b]. *)
Definition points_to (h : heap) (a b : loc) : Prop :=
  exists o : obj, h !! a = Some o /\ b ∈ refs_of o.

(** The elements of an array value. *)
Definition elements (h : heap) (v : value) : option (list value) :=
  match v with
  | VRef a =>
      match h !! a with
      | Some (OArray vs) => Some vs
      | _ => None
      end
  | _ => None
  end.

(** ** The heap after a construction *)

(** The cells one construction adds to a heap of [b] cells, as
    [new_spec] below establishes by running the initialisers. *)
Definition layout (b : loc) : list obj := [
  OObject [("defaultStates", VRef (b + 1));
           ("defaultTimeFrame", VRef (b + 8));
           ("flows", VRef (b + 11));
           ("deployments", VRef (b + 12));
           ("flow_runs", VRef (b + 13));
           ("task_runs", VRef (b + 14))];
  OArray [VRef (b + 2); VRef (b + 3); VRef (b + 4);
          VRef (b + 5); VRef (b + 6); VRef (b + 7)];
  OObject [("name", VStr "Scheduled"); ("type", VStr "SCHEDULED")];
  OObject [("name", VStr "Pending"); ("type", VStr "PENDING")];
  OObject [("name", VStr "Running"); ("type", VStr "RUNNING")];
  OObject [("name", VStr "Completed"); ("type", VStr "COMPLETED")];
  OObject [("name", VStr "Failed"); ("type", VStr "FAILED")];
  OObject [("name", VStr "Cancelled"); ("type", VStr "CANCELLED")];
  OObject [("dynamic", VBool true); ("from", VRef (b + 9)); ("to", VRef (b + 10))];
  OObject [("value", VNum 7); ("unit", VStr "days")];
  OObject [("value", VNum 1); ("unit", VStr "days")];
  OObject [];
  OObject [];
  OObject [("timeframe", VRef (b + 8)); ("states", VRef (b + 1))];
  OObject []
].

(** An instance with [pre] allocated before it and [post] after it. *)
Definition around (pre post : list obj) : list obj :=
  pre ++ layout (length pre) ++ post.

(** ** Running in a heap that already holds other objects

    Construction only touches the cells it allocates.  With the heap
    split as [h ++ l], [h] the cells present before and [l] the new
    ones, each primitive acts on [l] alone. *)

Section Frame.

Variable h : heap.

Lemma lookup_frame (l : heap) (k : nat) : (h ++ l) !! (length h + k) = l !! k.
Proof.
  rewrite lookup_app_r by lia.
  f_equal. lia.
Qed.

Lemma alloc_frame (l : heap) (o : obj) :
  alloc o (h ++ l) = Some (length h + length l, h ++ (l ++ [o])).
Proof.
  unfold alloc. rewrite length_app, <- app_assoc. reflexivity.
Qed.

Lemma define_prop_frame (l : heap) (k : nat) (key : string) (v : value) :
  define_prop (length h + k) key v (h ++ l) =
  match l !! k with
  | Some (OObject ps) => Some (tt, h ++ <[k := OObject (upsert key v ps)]> l)
  | _ => None
  end.
Proof.
  unfold define_prop. rewrite lookup_frame.
  destruct (l !! k) as [[ps|vs]|]; try reflexivity.
  rewrite insert_app_r. reflexivity.
Qed.

Lemma push_elem_frame (l : heap) (k : nat) (v : value) :
  push_elem (length h + k) v (h ++ l) =
  match l !! k with
  | Some (OArray vs) => Some (tt, h ++ <[k := OArray (vs ++ [v])]> l)
  | _ => None
  end.
Proof.
  unfold push_elem. rewrite lookup_frame.
  destruct (l !! k) as [[ps|vs]|]; try reflexivity.
  rewrite insert_app_r. reflexivity.
Qed.

Lemma get_prop_frame (l : heap) (k : nat) (key : string) :
  get_prop (length h + k) key (h ++ l) =
  match l !! k with
  | Some (OObject ps) => Some (default VUndef (assoc key ps), h ++ l)
  | _ => None
  end.
Proof.
  unfold get_prop. rewrite lookup_frame. reflexivity.
Qed.

End Frame.

Arguments alloc : simpl never.
Arguments define_prop : simpl never.
Arguments push_elem : simpl never.
Arguments get_prop : simpl never.

Ltac heap_step :=
  first [ rewrite alloc_frame
        | rewrite define_prop_frame
        | rewrite push_elem_frame
        | rewrite get_prop_frame
        | rewrite lookup_frame ];
  cbn.

(** Construction never fails, whatever the heap holds: the instance is
    the first new cell and the heap grows by [layout]. *)
Lemma new_spec (h : heap) :
  GlobalFilterDefaults.new h = Some (length h + 0, h ++ layout (length h)).
Proof.
  rewrite <- (app_nil_r h) at 1.
  cbv [GlobalFilterDefaults.new construct init_fields GlobalFilterDefaults.fields
       GlobalFilterDefaults.defaultStates GlobalFilterDefaults.defaultTimeFrame
       GlobalFilterDefaults.flows GlobalFilterDefaults.deployments
       GlobalFilterDefaults.flow_runs GlobalFilterDefaults.task_runs
       fd_init fd_name obj_lit arr_lit define_props push_elems this_get
       str num bool_lit bind ret].
  repeat heap_step.
  reflexivity.
Qed.

Lemma new_total (h : heap) : is_Some (GlobalFilterDefaults.new h).
Proof. rewrite new_spec. eexists; reflexivity. Qed.

(** Two constructions in a row give two different objects. *)
Lemma new_fresh (h h1 h2 : heap) (a1 a2 : loc) :
  GlobalFilterDefaults.new h = Some (a1, h1) ->
  GlobalFilterDefaults.new h1 = Some (a2, h2) ->
  a1 <> a2.
Proof.
  rewrite !new_spec. intros [= <- <-] [= <- _].
  rewrite length_app. cbn. lia.
Qed.

(** ** Properties of every instance *)

Section Instance.

Variables (h h' : heap) (inst : loc).
Hypothesis Hnew : GlobalFilterDefaults.new h = Some (inst, h').

Lemma instance_inv : inst = length h + 0 /\ h' = h ++ layout (length h).
Proof using Hnew.
  rewrite new_spec in Hnew. injection Hnew as <- <-. split; reflexivity.
Qed.

Ltac instance_eval :=
  destruct instance_inv as [-> ->];
  cbv [default_states read layout]; cbn;
  repeat heap_step.

(** C1: [flow_runs.states] is a list of exactly six [RunState] records,
    with type codes SCHEDULED, PENDING, RUNNING, COMPLETED, FAILED and
    CANCELLED, each paired with its display name: Scheduled, Pending,
    Running, Completed, Failed, Cancelled. *)
Theorem flow_runs_states_six (n : nat) :
  read (3 + n) h' (VRef inst) ["flow_runs"; "states"] =
  Some (TArr [
    TObj [("name", TStr "Scheduled"); ("type", TStr "SCHEDULED")];
    TObj [("name", TStr "Pending"); ("type", TStr "PENDING")];
    TObj [("name", TStr "Running"); ("type", TStr "RUNNING")];
    TObj [("name", TStr "Completed"); ("type", TStr "COMPLETED")];
    TObj [("name", TStr "Failed"); ("type", TStr "FAILED")];
    TObj [("name", TStr "Cancelled"); ("type", TStr "CANCELLED")]
  ]).
Proof using Hnew.
  instance_eval. reflexivity.
Qed.

(** C2: [flow_runs.timeframe.from] is the record [{ value: 7, unit: 'days' }]
    and [flow_runs.timeframe.to] is [{ value: 1, unit: 'days' }]: the
    window runs from seven days ago to one day ago. *)
Theorem timeframe_from_to (n : nat) :
  read (2 + n) h' (VRef inst) ["flow_runs"; "timeframe"; "from"] =
    Some (TObj [("value", TNum 7); ("unit", TStr "days")]) /\
  read (2 + n) h' (VRef inst) ["flow_runs"; "timeframe"; "to"] =
    Some (TObj [("value", TNum 1); ("unit", TStr "days")]).
Proof using Hnew.
  instance_eval. split; reflexivity.
Qed.

(** C3: [flows], [deployments] and [task_runs] are each an object with
    no keys. *)
Theorem empty_payloads (k : string) :
  k ∈ ["flows"; "deployments"; "task_runs"] ->
  exists a : loc,
    get_path h' (VRef inst) [k] = Some (VRef a) /\
    own_keys h' a = Some [] /\
    h' !! a = Some (OObject []).
Proof using Hnew.
  intros Hk.
  repeat (apply elem_of_cons in Hk as [-> | Hk]);
    [ exists (length h + 11) | exists (length h + 12) | exists (length h + 14)
    | by apply elem_of_nil in Hk ];
    instance_eval; cbv [own_keys]; repeat heap_step; repeat split.
Qed.

(** C4: [flow_runs.timeframe.dynamic] is [true]. *)
Theorem timeframe_dynamic :
  get_path h' (VRef inst) ["flow_runs"; "timeframe"; "dynamic"] =
  Some (VBool true).
Proof using Hnew.
  instance_eval. reflexivity.
Qed.

(** C5, as the code has it: an instance has six own keys, in declaration
    order; the public fields are exactly [flows], [deployments],
    [flow_runs] and [task_runs], none of them declared [readonly]; the
    two other keys, [defaultStates] and [defaultTimeFrame], are the
    private [readonly] fields. *)
Theorem instance_keys :
  own_keys h' inst =
    Some (["defaultStates"; "defaultTimeFrame"] ++ four_keys) /\
  fd_name <$> members Public GlobalFilterDefaults.fields = four_keys /\
  Forall (fun f => fd_readonly f = false)
         (members Public GlobalFilterDefaults.fields) /\
  fd_name <$> members Private GlobalFilterDefaults.fields =
    ["defaultStates"; "defaultTimeFrame"] /\
  Forall (fun f => fd_readonly f = true)
         (members Private GlobalFilterDefaults.fields) /\
  members Protected GlobalFilterDefaults.fields = [].
Proof using Hnew.
  split.
  - instance_eval. cbv [own_keys]. rewrite lookup_frame. reflexivity.
  - cbn. repeat split; repeat constructor.
Qed.

(** The records of the default states list, as read from the instance. *)
Lemma default_states_spec (n : nat) :
  default_states n h' inst =
  Some [("Scheduled", "SCHEDULED"); ("Pending", "PENDING");
        ("Running", "RUNNING"); ("Completed", "COMPLETED");
        ("Failed", "FAILED"); ("Cancelled", "CANCELLED")].
Proof using Hnew.
  instance_eval. reflexivity.
Qed.

(** What a deep comparison sees of an instance does not depend on the
    heap it was built in: it is what the instance built in the empty
    heap shows. *)
Lemma payload_snapshot (n : nat) (k : string) :
  k ∈ four_keys ->
  exists t : tree,
    read 4 (layout 0) (VRef 0) [k] = Some t /\
    read (4 + n) h' (VRef inst) [k] = Some t.
Proof using Hnew.
  intros Hk. unfold four_keys in Hk.
  repeat (apply elem_of_cons in Hk as [-> | Hk]);
    try (by apply elem_of_nil in Hk);
    (eexists; split; [vm_compute; reflexivity | instance_eval; reflexivity]).
Qed.

Lemma instance_snapshot (n : nat) :
  exists t : tree,
    read 5 (layout 0) (VRef 0) [] = Some t /\
    read (5 + n) h' (VRef inst) [] = Some t.
Proof using Hnew.
  eexists; split; [vm_compute; reflexivity |].
  instance_eval. reflexivity.
Qed.

(** C6: the [type] of every record of the default states list is one of
    SCHEDULED, PENDING, RUNNING, COMPLETED, FAILED, CANCELLED. *)
Theorem state_types_closed (n : nat) :
  exists records,
    default_states n h' inst = Some records /\
    Forall (fun r => r.2 ∈ run_state_types) records.
Proof using Hnew.
  eexists. split; [apply default_states_spec |].
  unfold run_state_types.
  repeat (apply Forall_cons; split; [cbn; repeat constructor |]).
  apply Forall_nil_2.
Qed.

(** C8: the six states come in the order SCHEDULED, PENDING, RUNNING,
    COMPLETED, FAILED, CANCELLED, and no type code occurs twice. *)
Theorem state_types_order (n : nat) :
  exists records,
    default_states n h' inst = Some records /\
    records.*2 =
      ["SCHEDULED"; "PENDING"; "RUNNING"; "COMPLETED"; "FAILED"; "CANCELLED"] /\
    NoDup records.*2.
Proof using Hnew.
  eexists. split; [apply default_states_spec |].
  split; [reflexivity |].
  apply (bool_decide_unpack _). vm_compute. reflexivity.
Qed.

(** C9: the default time frame looks backwards: both units are [days],
    both values are positive integers, and [from.value] is strictly
    greater than [to.value]. *)
Theorem timeframe_backward :
  get_path h' (VRef inst) ["flow_runs"; "timeframe"; "from"; "unit"] =
    Some (VStr "days") /\
  get_path h' (VRef inst) ["flow_runs"; "timeframe"; "to"; "unit"] =
    Some (VStr "days") /\
  exists from_value to_value : Z,
    get_path h' (VRef inst) ["flow_runs"; "timeframe"; "from"; "value"] =
      Some (VNum from_value) /\
    get_path h' (VRef inst) ["flow_runs"; "timeframe"; "to"; "value"] =
      Some (VNum to_value) /\
    (0 < from_value)%Z /\ (0 < to_value)%Z /\ (to_value < from_value)%Z.
Proof using Hnew.
  instance_eval.
  split; [reflexivity |]. split; [reflexivity |].
  exists 7%Z, 1%Z. repeat split; lia.
Qed.

(** C10: in every record of the default states list, the display name is
    the type code with its first letter in upper case and the other
    letters in lower case. *)
Theorem state_names_capitalized (n : nat) :
  exists records,
    default_states n h' inst = Some records /\
    Forall (fun r => r.1 = capitalize r.2) records.
Proof using Hnew.
  eexists. split; [apply default_states_spec |].
  repeat (apply Forall_cons; split; [reflexivity |]).
  apply Forall_nil_2.
Qed.

End Instance.

(** ** Two instances *)

(** C7: construction is deterministic and idempotent: two instances,
    built in any two heaps (the second possibly the heap the first left
    behind), are deep-equal as a whole and in each of the four fields. *)
Theorem construction_idempotent
    (h1 h1' h2 h2' : heap) (a1 a2 : loc) (n : nat) :
  GlobalFilterDefaults.new h1 = Some (a1, h1') ->
  GlobalFilterDefaults.new h2 = Some (a2, h2') ->
  (exists t : tree,
     read (5 + n) h1' (VRef a1) [] = Some t /\
     read (5 + n) h2' (VRef a2) [] = Some t) /\
  Forall (fun k =>
            exists t : tree,
              read (4 + n) h1' (VRef a1) [k] = Some t /\
              read (4 + n) h2' (VRef a2) [k] = Some t)
         four_keys.
Proof.
  intros H1 H2. split.
  - destruct (instance_snapshot _ _ _ H1 n) as (t1 & Ht1 & Hr1).
    destruct (instance_snapshot _ _ _ H2 n) as (t2 & Ht2 & Hr2).
    exists t1. split; [exact Hr1 | congruence].
  - apply Forall_forall. intros k Hk.
    destruct (payload_snapshot _ _ _ H1 n k Hk) as (t1 & Ht1 & Hr1).
    destruct (payload_snapshot _ _ _ H2 n k Hk) as (t2 & Ht2 & Hr2).
    exists t1. split; [exact Hr1 | congruence].
Qed.

(** ** The keys of an instance, against the claim of four read-only keys *)

(** C5 as stated fails on the instance built in the empty heap: its own
    keys are six, not a rearrangement of the four public ones, and the
    public fields are not declared [readonly]. *)
Lemma four_readonly_keys_refuted :
  GlobalFilterDefaults.new [] = Some (0, layout 0) /\
  ~ (exists own : list string,
       own_keys (layout 0) 0 = Some own /\ own ≡ₚ four_keys) /\
  ~ Forall (fun f => fd_readonly f = true)
           (members Public GlobalFilterDefaults.fields).
Proof.
  split; [reflexivity |]. split.
  - intros (own & Hown & Hperm).
    injection Hown as <-.
    apply Permutation_length in Hperm. discriminate Hperm.
  - intros Hro. apply Forall_cons in Hro as [Hflows _].
    discriminate Hflows.
Qed.

(** ** The theorems at the instance built in the empty heap *)

Lemma flow_runs_states_six_witness :
  GlobalFilterDefaults.new [] = Some (0, layout 0) /\
  read 3 (layout 0) (VRef 0) ["flow_runs"; "states"] =
  Some (TArr [
    TObj [("name", TStr "Scheduled"); ("type", TStr "SCHEDULED")];
    TObj [("name", TStr "Pending"); ("type", TStr "PENDING")];
    TObj [("name", TStr "Running"); ("type", TStr "RUNNING")];
    TObj [("name", TStr "Completed"); ("type", TStr "COMPLETED")];
    TObj [("name", TStr "Failed"); ("type", TStr "FAILED")];
    TObj [("name", TStr "Cancelled"); ("type", TStr "CANCELLED")]
  ]).
Proof.
  split; [reflexivity |].
  apply (flow_runs_states_six [] (layout 0) 0 eq_refl 0).
Defined.

Lemma timeframe_from_to_witness :
  GlobalFilterDefaults.new [] = Some (0, layout 0) /\
  read 2 (layout 0) (VRef 0) ["flow_runs"; "timeframe"; "from"] =
    Some (TObj [("value", TNum 7); ("unit", TStr "days")]) /\
  read 2 (layout 0) (VRef 0) ["flow_runs"; "timeframe"; "to"] =
    Some (TObj [("value", TNum 1); ("unit", TStr "days")]).
Proof.
  split; [reflexivity |].
  apply (timeframe_from_to [] (layout 0) 0 eq_refl 0).
Defined.

Lemma empty_payloads_witness :
  GlobalFilterDefaults.new [] = Some (0, layout 0) /\
  "task_runs" ∈ ["flows"; "deployments"; "task_runs"] /\
  exists a : loc,
    get_path (layout 0) (VRef 0) ["task_runs"] = Some (VRef a) /\
    own_keys (layout 0) a = Some [] /\
    layout 0 !! a = Some (OObject []).
Proof.
  assert (Hk : "task_runs" ∈ ["flows"; "deployments"; "task_runs"])
    by (do 2 apply list_elem_of_further; apply list_elem_of_here).
  split; [reflexivity |]. split; [exact Hk |].
  apply (empty_payloads [] (layout 0) 0 eq_refl "task_runs" Hk).
Defined.

Lemma timeframe_dynamic_witness :
  GlobalFilterDefaults.new [] = Some (0, layout 0) /\
  get_path (layout 0) (VRef 0) ["flow_runs"; "timeframe"; "dynamic"] =
  Some (VBool true).
Proof.
  split; [reflexivity |].
  apply (timeframe_dynamic [] (layout 0) 0 eq_refl).
Defined.

Lemma instance_keys_witness :
  GlobalFilterDefaults.new [] = Some (0, layout 0) /\
  own_keys (layout 0) 0 =
    Some ["defaultStates"; "defaultTimeFrame";
          "flows"; "deployments"; "flow_runs"; "task_runs"].
Proof.
  split; [reflexivity |].
  apply (instance_keys [] (layout 0) 0 eq_refl).
Defined.

Lemma state_types_closed_witness :
  GlobalFilterDefaults.new [] = Some (0, layout 0) /\
  exists records,
    default_states 0 (layout 0) 0 = Some records /\
    Forall (fun r => r.2 ∈ run_state_types) records.
Proof.
  split; [reflexivity |].
  apply (state_types_closed [] (layout 0) 0 eq_refl 0).
Defined.

Lemma state_types_order_witness :
  GlobalFilterDefaults.new [] = Some (0, layout 0) /\
  exists records,
    default_states 0 (layout 0) 0 = Some records /\
    records.*2 =
      ["SCHEDULED"; "PENDING"; "RUNNING"; "COMPLETED"; "FAILED"; "CANCELLED"] /\
    NoDup records.*2.
Proof.
  split; [reflexivity |].
  apply (state_types_order [] (layout 0) 0 eq_refl 0).
Defined.

Lemma timeframe_backward_witness :
  GlobalFilterDefaults.new [] = Some (0, layout 0) /\
  exists from_value to_value : Z,
    get_path (layout 0) (VRef 0) ["flow_runs"; "timeframe"; "from"; "value"] =
      Some (VNum from_value) /\
    get_path (layout 0) (VRef 0) ["flow_runs"; "timeframe"; "to"; "value"] =
      Some (VNum to_value) /\
    (0 < from_value)%Z /\ (0 < to_value)%Z /\ (to_value < from_value)%Z.
Proof.
  split; [reflexivity |].
  apply (timeframe_backward [] (layout 0) 0 eq_refl).
Defined.

Lemma state_names_capitalized_witness :
  GlobalFilterDefaults.new [] = Some (0, layout 0) /\
  exists records,
    default_states 0 (layout 0) 0 = Some records /\
    Forall (fun r => r.1 = capitalize r.2) records.
Proof.
  split; [reflexivity |].
  apply (state_names_capitalized [] (layout 0) 0 eq_refl 0).
Defined.

(** Two instances built one after the other in the same heap: the first
    at address 0, the second at address 15. *)
Lemma construction_idempotent_witness :
  GlobalFilterDefaults.new [] = Some (0, layout 0) /\
  GlobalFilterDefaults.new (layout 0) = Some (15, layout 0 ++ layout 15) /\
  Forall (fun k =>
            exists t : tree,
              read 4 (layout 0) (VRef 0) [k] = Some t /\
              read 4 (layout 0 ++ layout 15) (VRef 15) [k] = Some t)
         four_keys.
Proof.
  split; [reflexivity |]. split; [reflexivity |].
  apply (construction_idempotent [] (layout 0) (layout 0)
           (layout 0 ++ layout 15) 0 15 0 eq_refl eq_refl).
Defined.

(** ** The object graph of an instance *)

Lemma layout_length (b : loc) : length (layout b) = 15.
Proof. reflexivity. Qed.

(** The cells of a construction refer to each other only. *)
Lemma layout_closed (b : loc) :
  Forall (fun o => Forall (fun a => b <= a < b + 15) (refs_of o)) (layout b).
Proof.
  cbv [layout]. cbn.
  repeat apply Forall_cons_2; try apply Forall_nil_2; lia.
Qed.

Section Around.

Variables pre post : heap.

Lemma around_lookup (i : nat) :
  i < 15 -> around pre post !! (length pre + i) = layout (length pre) !! i.
Proof using Type.
  intros Hi. unfold around.
  rewrite lookup_frame, lookup_app_l by (rewrite layout_length; lia).
  reflexivity.
Qed.

Lemma points_to_in_range (a b : loc) :
  length pre <= a < length pre + 15 ->
  points_to (around pre post) a b ->
  length pre <= b < length pre + 15.
Proof using Type.
  intros Ha (o & Ho & Hb).
  replace a with (length pre + (a - length pre)) in Ho by lia.
  rewrite around_lookup in Ho by lia.
  pose proof (layout_closed (length pre)) as Hcl.
  rewrite Forall_lookup in Hcl. specialize (Hcl _ _ Ho).
  rewrite Forall_forall in Hcl. apply Hcl, Hb.
Qed.

Lemma reachable_in_range (a x : loc) :
  length pre <= a < length pre + 15 ->
  rtc (points_to (around pre post)) a x ->
  length pre <= x < length pre + 15.
Proof using Type.
  intros Ha Hreach. induction Hreach as [a | a b x Hstep _ IH].
  - exact Ha.
  - apply IH. eapply points_to_in_range; eassumption.
Qed.

(** What the instance shows does not depend on the cells around it. *)
Lemma around_snapshot (n : nat) :
  exists t : tree,
    read 5 (layout 0) (VRef 0) [] = Some t /\
    read (5 + n) (around pre post) (VRef (length pre + 0)) [] = Some t.
Proof using Type.
  eexists; split; [vm_compute; reflexivity |].
  unfold around. cbv [read layout]. cbn.
  repeat heap_step. reflexivity.
Qed.

End Around.

(** Two constructions in a row: where the instances and the cells are. *)
Lemma two_instances_inv (h h1 h2 : heap) (a1 a2 : loc) :
  GlobalFilterDefaults.new h = Some (a1, h1) ->
  GlobalFilterDefaults.new h1 = Some (a2, h2) ->
  a1 = length h /\ a2 = length h1 /\ length h1 = length h + 15 /\
  h1 = h ++ layout (length h) /\
  h2 = around h (layout (length h1)) /\
  h2 = around h1 [].
Proof.
  rewrite !new_spec. intros [= <- <-] [= <- <-].
  rewrite !Nat.add_0_r. unfold around.
  rewrite app_nil_r, <- app_assoc, length_app, layout_length.
  repeat split; reflexivity.
Qed.

Section Graph.

Variables (h h' : heap) (inst : loc).
Hypothesis Hnew : GlobalFilterDefaults.new h = Some (inst, h').

Ltac graph_eval :=
  destruct (instance_inv h h' inst Hnew) as [-> ->];
  cbv [read layout own_keys elements]; cbn;
  repeat heap_step.

(** [flow_runs.timeframe] is the very object held by the private field
    [defaultTimeFrame], and [flow_runs.states] the very array held by
    [defaultStates]: the initialiser of [flow_runs] copies references. *)
Theorem flow_runs_aliases_private_fields :
  exists tf st : loc,
    get_path h' (VRef inst) ["flow_runs"; "timeframe"] = Some (VRef tf) /\
    get_path h' (VRef inst) ["defaultTimeFrame"] = Some (VRef tf) /\
    get_path h' (VRef inst) ["flow_runs"; "states"] = Some (VRef st) /\
    get_path h' (VRef inst) ["defaultStates"] = Some (VRef st) /\
    tf <> st.
Proof using Hnew.
  exists (length h + 8), (length h + 1).
  graph_eval. repeat split; lia.
Qed.

(** Whatever is reachable from an instance was allocated by its own
    construction: no reference dangles, and none leads to an object that
    existed before. *)
Theorem instance_graph_closed (x : loc) :
  rtc (points_to h') inst x ->
  is_Some (h' !! x) /\ h !! x = None.
Proof using Hnew.
  destruct (instance_inv h h' inst Hnew) as [-> ->].
  replace (h ++ layout (length h)) with (around h [])
    by (unfold around; rewrite app_nil_r; reflexivity).
  intros Hreach. apply reachable_in_range in Hreach; [| lia].
  split.
  - apply lookup_lt_is_Some.
    unfold around. rewrite !length_app, layout_length. lia.
  - apply lookup_ge_None. lia.
Qed.

(** The instance and its four public payloads are five different
    objects: each [{}] of the source is an object of its own. *)
Theorem payloads_distinct :
  exists fl dp fr tr : loc,
    get_path h' (VRef inst) ["flows"] = Some (VRef fl) /\
    get_path h' (VRef inst) ["deployments"] = Some (VRef dp) /\
    get_path h' (VRef inst) ["flow_runs"] = Some (VRef fr) /\
    get_path h' (VRef inst) ["task_runs"] = Some (VRef tr) /\
    NoDup [inst; fl; dp; fr; tr].
Proof using Hnew.
  exists (length h + 11), (length h + 12), (length h + 13), (length h + 14).
  graph_eval. repeat split.
  repeat (apply NoDup_cons; split;
          [rewrite ?elem_of_cons, elem_of_nil; lia |]).
  apply NoDup_nil_2.
Qed.

(** The six records of the states list are six different objects, and
    the [from] and [to] offsets of the time frame are two different
    objects although they carry the same unit. *)
Theorem records_distinct :
  (exists st : value, exists recs : list loc,
     get_path h' (VRef inst) ["flow_runs"; "states"] = Some st /\
     elements h' st = Some (VRef <$> recs) /\
     length recs = 6 /\ NoDup recs) /\
  (exists from to : loc,
     get_path h' (VRef inst) ["flow_runs"; "timeframe"; "from"] =
       Some (VRef from) /\
     get_path h' (VRef inst) ["flow_runs"; "timeframe"; "to"] =
       Some (VRef to) /\
     from <> to).
Proof using Hnew.
  split.
  - exists (VRef (length h + 1)).
    exists [length h + 2; length h + 3; length h + 4;
            length h + 5; length h + 6; length h + 7].
    graph_eval. repeat split.
    repeat (apply NoDup_cons; split;
            [rewrite ?elem_of_cons, elem_of_nil; lia |]).
    apply NoDup_nil_2.
  - exists (length h + 9), (length h + 10).
    graph_eval. repeat split. lia.
Qed.

(** [flow_runs] has the keys [timeframe] and [states] and no other, and
    its time frame the keys [dynamic], [from] and [to] and no other. *)
Theorem flow_runs_shape :
  exists fr tf : loc,
    get_path h' (VRef inst) ["flow_runs"] = Some (VRef fr) /\
    own_keys h' fr = Some ["timeframe"; "states"] /\
    get_path h' (VRef inst) ["flow_runs"; "timeframe"] = Some (VRef tf) /\
    own_keys h' tf = Some ["dynamic"; "from"; "to"].
Proof using Hnew.
  exists (length h + 13), (length h + 8).
  graph_eval. repeat split.
Qed.

(** The display names of the default states are pairwise different, and
    each type code is its display name in upper case. *)
Theorem state_names_unique (n : nat) :
  exists records,
    default_states n h' inst = Some records /\
    NoDup records.*1 /\
    Forall (fun r => r.2 = uppercase r.1) records.
Proof using Hnew.
  eexists. split; [apply (default_states_spec h h' inst Hnew) |].
  split.
  - apply (bool_decide_unpack _). vm_compute. reflexivity.
  - repeat (apply Forall_cons_2; [reflexivity |]). apply Forall_nil_2.
Qed.

(** An element pushed on the public [flow_runs.states] shows in the
    private [defaultStates] as well: they are one array. *)
Theorem push_shows_in_defaultStates (st : loc) (v : value) (h'' : heap) :
  get_path h' (VRef inst) ["flow_runs"; "states"] = Some (VRef st) ->
  push_elem st v h' = Some (tt, h'') ->
  exists vs : list value,
    elements h' (VRef st) = Some vs /\
    length vs = 6 /\
    get_path h'' (VRef inst) ["defaultStates"] = Some (VRef st) /\
    elements h'' (VRef st) = Some (vs ++ [v]).
Proof using Hnew.
  destruct (instance_inv h h' inst Hnew) as [-> ->].
  cbv [layout]. cbn. repeat heap_step.
  intros [= <-]. rewrite push_elem_frame. cbn. intros [= <-].
  eexists. cbv [elements]. repeat heap_step.
  repeat split.
Qed.


End Graph.

(** Construction leaves every cell that was there untouched: it adds
    fifteen cells after them, the first of which is the instance. *)
Theorem construction_frame (h h' : heap) (inst : loc) :
  GlobalFilterDefaults.new h = Some (inst, h') ->
  inst = length h /\
  length h' = length h + 15 /\
  take (length h) h' = h /\
  h !! inst = None.
Proof.
  intros Hnew.
  destruct (instance_inv h h' inst Hnew) as [-> ->].
  rewrite Nat.add_0_r, length_app, layout_length, take_app_length.
  repeat split. apply lookup_ge_None. lia.
Qed.

(** ** Two instances in one heap *)

(** Nothing reachable from one instance is reachable from an instance
    constructed after it: the defaults are built anew for each instance,
    not shared between them. *)
Theorem instances_share_nothing
    (h h1 h2 : heap) (a1 a2 x y : loc) :
  GlobalFilterDefaults.new h = Some (a1, h1) ->
  GlobalFilterDefaults.new h1 = Some (a2, h2) ->
  rtc (points_to h2) a1 x ->
  rtc (points_to h2) a2 y ->
  x <> y.
Proof.
  intros H1 H2 Hx Hy.
  destruct (two_instances_inv _ _ _ _ _ H1 H2)
    as (-> & -> & Hlen & _ & E1 & E2).
  rewrite E1 in Hx. apply reachable_in_range in Hx; [| lia].
  rewrite E2 in Hy. apply reachable_in_range in Hy; [| lia].
  lia.
Qed.

(** Overwriting any object reachable from the first of two instances,
    with anything, leaves all that the second instance shows as it was. *)
Theorem later_instance_isolated
    (h h1 h2 : heap) (a1 a2 x : loc) (o : obj) (n : nat) :
  GlobalFilterDefaults.new h = Some (a1, h1) ->
  GlobalFilterDefaults.new h1 = Some (a2, h2) ->
  rtc (points_to h2) a1 x ->
  exists t : tree,
    read (5 + n) h2 (VRef a2) [] = Some t /\
    read (5 + n) (<[x := o]> h2) (VRef a2) [] = Some t.
Proof.
  intros H1 H2 Hx.
  destruct (two_instances_inv _ _ _ _ _ H1 H2)
    as (-> & -> & Hlen & _ & E1 & E2).
  rewrite E1 in Hx. apply reachable_in_range in Hx; [| lia].
  rewrite E2.
  destruct (around_snapshot h1 [] n) as (t & Ht & Hr).
  destruct (around_snapshot (<[x := o]> h1) [] n) as (t' & Ht' & Hr').
  unfold around in *.
  rewrite Nat.add_0_r in Hr. rewrite !length_insert, Nat.add_0_r in Hr'.
  exists t. split; [exact Hr |].
  rewrite insert_app_l by lia.
  rewrite Hr'. congruence.
Qed.

(** Overwriting any object reachable from the second of two instances
    leaves all that the first instance shows as it was. *)
Theorem earlier_instance_isolated
    (h h1 h2 : heap) (a1 a2 x : loc) (o : obj) (n : nat) :
  GlobalFilterDefaults.new h = Some (a1, h1) ->
  GlobalFilterDefaults.new h1 = Some (a2, h2) ->
  rtc (points_to h2) a2 x ->
  exists t : tree,
    read (5 + n) h2 (VRef a1) [] = Some t /\
    read (5 + n) (<[x := o]> h2) (VRef a1) [] = Some t.
Proof.
  intros H1 H2 Hx.
  destruct (two_instances_inv _ _ _ _ _ H1 H2)
    as (-> & -> & Hlen & _ & E1 & E2).
  rewrite E2 in Hx. apply reachable_in_range in Hx; [| lia].
  rewrite E1.
  destruct (around_snapshot h (layout (length h1)) n) as (t & Ht & Hr).
  destruct (around_snapshot h (<[x - length h1 := o]> (layout (length h1))) n)
    as (t' & Ht' & Hr').
  unfold around in *.
  rewrite Nat.add_0_r in Hr, Hr'.
  exists t. split; [exact Hr |].
  replace x with
    (length h + (length (layout (length h)) + (x - length h1))) at 1
    by (rewrite layout_length; lia).
  rewrite !insert_app_r.
  rewrite Hr'. congruence.
Qed.

(** ** These theorems at instances built from the empty heap *)

Lemma flow_runs_aliases_private_fields_witness :
  GlobalFilterDefaults.new [] = Some (0, layout 0) /\
  exists tf st : loc,
    get_path (layout 0) (VRef 0) ["flow_runs"; "timeframe"] = Some (VRef tf) /\
    get_path (layout 0) (VRef 0) ["defaultTimeFrame"] = Some (VRef tf) /\
    get_path (layout 0) (VRef 0) ["flow_runs"; "states"] = Some (VRef st) /\
    get_path (layout 0) (VRef 0) ["defaultStates"] = Some (VRef st) /\
    tf <> st.
Proof.
  split; [reflexivity |].
  apply (flow_runs_aliases_private_fields [] (layout 0) 0 eq_refl).
Defined.

Lemma construction_frame_witness :
  GlobalFilterDefaults.new [OArray []] = Some (1, OArray [] :: layout 1) /\
  1 = length [OArray []] /\
  length (OArray [] :: layout 1) = 16 /\
  take 1 (OArray [] :: layout 1) = [OArray []] /\
  [OArray []] !! 1 = None.
Proof.
  split; [reflexivity |].
  apply (construction_frame [OArray []] (OArray [] :: layout 1) 1 eq_refl).
Defined.

Lemma instance_graph_closed_witness :
  GlobalFilterDefaults.new [OArray []] = Some (1, OArray [] :: layout 1) /\
  rtc (points_to (OArray [] :: layout 1)) 1 3 /\
  is_Some ((OArray [] :: layout 1) !! 3) /\
  [OArray []] !! 3 = None.
Proof.
  assert (Hreach : rtc (points_to (OArray [] :: layout 1)) 1 3).
  { eapply rtc_l;
      [eexists; split; [reflexivity | apply list_elem_of_here] |].
    eapply rtc_l;
      [eexists; split; [reflexivity | apply list_elem_of_here] |].
    apply rtc_refl. }
  split; [reflexivity |]. split; [exact Hreach |].
  apply (instance_graph_closed [OArray []] (OArray [] :: layout 1) 1
           eq_refl 3 Hreach).
Defined.

Lemma payloads_distinct_witness :
  GlobalFilterDefaults.new [] = Some (0, layout 0) /\
  exists fl dp fr tr : loc,
    get_path (layout 0) (VRef 0) ["flows"] = Some (VRef fl) /\
    get_path (layout 0) (VRef 0) ["deployments"] = Some (VRef dp) /\
    get_path (layout 0) (VRef 0) ["flow_runs"] = Some (VRef fr) /\
    get_path (layout 0) (VRef 0) ["task_runs"] = Some (VRef tr) /\
    NoDup [0; fl; dp; fr; tr].
Proof.
  split; [reflexivity |].
  apply (payloads_distinct [] (layout 0) 0 eq_refl).
Defined.

Lemma records_distinct_witness :
  GlobalFilterDefaults.new [] = Some (0, layout 0) /\
  exists st : value, exists recs : list loc,
    get_path (layout 0) (VRef 0) ["flow_runs"; "states"] = Some st /\
    elements (layout 0) st = Some (VRef <$> recs) /\
    length recs = 6 /\ NoDup recs.
Proof.
  split; [reflexivity |].
  apply (records_distinct [] (layout 0) 0 eq_refl).
Defined.

Lemma flow_runs_shape_witness :
  GlobalFilterDefaults.new [] = Some (0, layout 0) /\
  exists fr tf : loc,
    get_path (layout 0) (VRef 0) ["flow_runs"] = Some (VRef fr) /\
    own_keys (layout 0) fr = Some ["timeframe"; "states"] /\
    get_path (layout 0) (VRef 0) ["flow_runs"; "timeframe"] = Some (VRef tf) /\
    own_keys (layout 0) tf = Some ["dynamic"; "from"; "to"].
Proof.
  split; [reflexivity |].
  apply (flow_runs_shape [] (layout 0) 0 eq_refl).
Defined.

Lemma state_names_unique_witness :
  GlobalFilterDefaults.new [] = Some (0, layout 0) /\
  exists records,
    default_states 0 (layout 0) 0 = Some records /\
    NoDup records.*1 /\
    Forall (fun r => r.2 = uppercase r.1) records.
Proof.
  split; [reflexivity |].
  apply (state_names_unique [] (layout 0) 0 eq_refl 0).
Defined.

(** Pushing the string [x] on the states array of the instance at 0. *)
Lemma push_shows_in_defaultStates_witness :
  GlobalFilterDefaults.new [] = Some (0, layout 0) /\
  get_path (layout 0) (VRef 0) ["flow_runs"; "states"] = Some (VRef 1) /\
  push_elem 1 (VStr "x") (layout 0) =
    Some (tt, <[1 := OArray [VRef 2; VRef 3; VRef 4; VRef 5; VRef 6; VRef 7;
                             VStr "x"]]> (layout 0)) /\
  exists vs : list value,
    elements (layout 0) (VRef 1) = Some vs /\
    length vs = 6 /\
    get_path (<[1 := OArray [VRef 2; VRef 3; VRef 4; VRef 5; VRef 6; VRef 7;
                             VStr "x"]]> (layout 0))
             (VRef 0) ["defaultStates"] = Some (VRef 1) /\
    elements (<[1 := OArray [VRef 2; VRef 3; VRef 4; VRef 5; VRef 6; VRef 7;
                             VStr "x"]]> (layout 0))
             (VRef 1) = Some (vs ++ [VStr "x"]).
Proof.
  split; [reflexivity |]. split; [reflexivity |]. split; [reflexivity |].
  apply (push_shows_in_defaultStates [] (layout 0) 0 eq_refl 1 (VStr "x")
           _ eq_refl eq_refl).
Defined.

(** Two instances, at 0 and at 15; the states array of the first is at
    1, that of the second at 16. *)
Lemma instances_share_nothing_witness :
  GlobalFilterDefaults.new [] = Some (0, layout 0) /\
  GlobalFilterDefaults.new (layout 0) = Some (15, layout 0 ++ layout 15) /\
  rtc (points_to (layout 0 ++ layout 15)) 0 1 /\
  rtc (points_to (layout 0 ++ layout 15)) 15 16 /\
  1 <> 16.
Proof.
  assert (Hx : rtc (points_to (layout 0 ++ layout 15)) 0 1).
  { eapply rtc_l;
      [eexists; split; [reflexivity | apply list_elem_of_here] |].
    apply rtc_refl. }
  assert (Hy : rtc (points_to (layout 0 ++ layout 15)) 15 16).
  { eapply rtc_l;
      [eexists; split; [reflexivity | apply list_elem_of_here] |].
    apply rtc_refl. }
  split; [reflexivity |]. split; [reflexivity |].
  split; [exact Hx |]. split; [exact Hy |].
  apply (instances_share_nothing [] (layout 0) (layout 0 ++ layout 15)
           0 15 1 16 eq_refl eq_refl Hx Hy).
Defined.

Lemma later_instance_isolated_witness :
  GlobalFilterDefaults.new [] = Some (0, layout 0) /\
  GlobalFilterDefaults.new (layout 0) = Some (15, layout 0 ++ layout 15) /\
  rtc (points_to (layout 0 ++ layout 15)) 0 1 /\
  exists t : tree,
    read 5 (layout 0 ++ layout 15) (VRef 15) [] = Some t /\
    read 5 (<[1 := OArray []]> (layout 0 ++ layout 15)) (VRef 15) [] = Some t.
Proof.
  assert (Hx : rtc (points_to (layout 0 ++ layout 15)) 0 1).
  { eapply rtc_l;
      [eexists; split; [reflexivity | apply list_elem_of_here] |].
    apply rtc_refl. }
  split; [reflexivity |]. split; [reflexivity |]. split; [exact Hx |].
  apply (later_instance_isolated [] (layout 0) (layout 0 ++ layout 15)
           0 15 1 (OArray []) 0 eq_refl eq_refl Hx).
Defined.

Lemma earlier_instance_isolated_witness :
  GlobalFilterDefaults.new [] = Some (0, layout 0) /\
  GlobalFilterDefaults.new (layout 0) = Some (15, layout 0 ++ layout 15) /\
  rtc (points_to (layout 0 ++ layout 15)) 15 16 /\
  exists t : tree,
    read 5 (layout 0 ++ layout 15) (VRef 0) [] = Some t /\
    read 5 (<[16 := OArray []]> (layout 0 ++ layout 15)) (VRef 0) [] = Some t.
Proof.
  assert (Hx : rtc (points_to (layout 0 ++ layout 15)) 15 16).
  { eapply rtc_l;
      [eexists; split; [reflexivity | apply list_elem_of_here] |].
    apply rtc_refl. }
  split; [reflexivity |]. split; [reflexivity |]. split; [exact Hx |].
  apply (earlier_instance_isolated [] (layout 0) (layout 0 ++ layout 15)
           0 15 16 (OArray []) 0 eq_refl eq_refl Hx).
Defined.

